(** * Grid geometry of the year heatmap (src/heatmap.tsx)

    The component lays the days of one calendar year out in week columns.
    Its arithmetic rests on dayjs, which in turn rests on the ECMAScript
    [Date] object.  Both are modelled here at the granularity of one civil
    day of the local calendar:

    - a [Date] or [Dayjs] value is the number of its local calendar day,
      counted from 1970-01-01 (day 0); the time of day and the zone are left
      out, since every value the component keeps sits at local midnight and
      the only other one, [dayjs()], is reduced by [startOf] or read through
      [daysInMonth];
    - JavaScript numbers are integers of [Z]: the year is an integer and the
      range limit of time values (10^8 days around the epoch) is not
      modelled;
    - [dayjs()] reads the clock: the current day is the argument [now] of
      every function that calls it. *)

From Stdlib Require Import ZArith List String Ascii Lia Bool DecimalString.
Import ListNotations.
Local Open Scope Z_scope.

(** ** ECMAScript date arithmetic (ECMA-262, "Time Values and Time Range",
       "Year Number", "Month Number", "Date Number", "Week Day", [MakeDay],
       the [Date] constructor and the setters), on day numbers. *)
Module ECMA.

Definition DaysInYear (y : Z) : Z :=
  if negb (y mod 4 =? 0) then 365
  else if negb (y mod 100 =? 0) then 366
  else if negb (y mod 400 =? 0) then 365
  else 366.

Definition DayFromYear (y : Z) : Z :=
  365 * (y - 1970) + (y - 1969) / 4 - (y - 1901) / 100 + (y - 1601) / 400.

(** The largest [y] with [DayFromYear y <= d]: the quotient by the mean
    year length is off by at most one, and is adjusted. *)
Definition YearFromDay (d : Z) : Z :=
  let y := 1970 + (400 * d) / 146097 in
  if d <? DayFromYear y then y - 1
  else if DayFromYear (y + 1) <=? d then y + 1
  else y.

Definition LeapOfYear (y : Z) : Z := DaysInYear y - 365.

Definition InLeapYear (d : Z) : Z := LeapOfYear (YearFromDay d).

Definition DayWithinYear (d : Z) : Z := d - DayFromYear (YearFromDay d).

(** Day within the year on which month [m] (0 = January) starts; month 12
    stands for the start of the next year. *)
Definition monthStart (leap m : Z) : Z :=
  match m with
  | 0 => 0
  | 1 => 31
  | 2 => 59 + leap
  | 3 => 90 + leap
  | 4 => 120 + leap
  | 5 => 151 + leap
  | 6 => 181 + leap
  | 7 => 212 + leap
  | 8 => 243 + leap
  | 9 => 273 + leap
  | 10 => 304 + leap
  | 11 => 334 + leap
  | _ => 365 + leap
  end.

Definition MonthFromDay (d : Z) : Z :=
  let n := DayWithinYear d in
  let l := InLeapYear d in
  if n <? 31 then 0
  else if n <? 59 + l then 1
  else if n <? 90 + l then 2
  else if n <? 120 + l then 3
  else if n <? 151 + l then 4
  else if n <? 181 + l then 5
  else if n <? 212 + l then 6
  else if n <? 243 + l then 7
  else if n <? 273 + l then 8
  else if n <? 304 + l then 9
  else if n <? 334 + l then 10
  else 11.

Definition DateFromDay (d : Z) : Z :=
  DayWithinYear d + 1 - monthStart (InLeapYear d) (MonthFromDay d).

(** 0 = Sunday ... 6 = Saturday; 1970-01-01 was a Thursday. *)
Definition WeekDay (d : Z) : Z := (d + 4) mod 7.

Definition MakeDay (year month date : Z) : Z :=
  let ym := year + month / 12 in
  let mn := month mod 12 in
  DayFromYear ym + monthStart (LeapOfYear ym) mn + date - 1.

(** [new Date(year, month, date)]: a year from 0 to 99 means 1900 + year. *)
Definition fullYear (year : Z) : Z :=
  if (0 <=? year) && (year <=? 99) then 1900 + year else year.

Definition DateCtor (year month date : Z) : Z :=
  MakeDay (fullYear year) month date.

Definition setFullYear (t year : Z) : Z :=
  MakeDay year (MonthFromDay t) (DateFromDay t).

Definition setMonth (t month : Z) : Z :=
  MakeDay (YearFromDay t) month (DateFromDay t).

Definition setDate (t date : Z) : Z :=
  MakeDay (YearFromDay t) (MonthFromDay t) date.

End ECMA.

(** ** The dayjs operations the component calls (dayjs 1.11, src/index.js
       and plugin/isoWeek). *)
Module Dayjs.

Definition t := Z.

(** The fields [$y], [$M], [$D] that [init] reads off the wrapped [Date]. *)
Definition year_of (d : t) : Z := ECMA.YearFromDay d.
Definition month_of (d : t) : Z := ECMA.MonthFromDay d.
Definition date_of (d : t) : Z := ECMA.DateFromDay d.

(** [day()] is [getDay()] of the wrapped date. *)
Definition day (d : t) : Z := ECMA.WeekDay d.

(** isoWeek plugin: [isoWeekday()] is [this.day() || 7]. *)
Definition isoWeekday (d : t) : Z := if day d =? 0 then 7 else day d.

(** [set('date', n)]. *)
Definition set_date (d : t) (n : Z) : t := ECMA.setDate d n.

(** [endOf('month')] builds [new Date($y, $M + 1, 0)]; [daysInMonth()] is
    its [$D]. *)
Definition endOf_month (d : t) : t := ECMA.DateCtor (year_of d) (month_of d + 1) 0.

Definition daysInMonth (d : t) : Z := date_of (endOf_month d).

(** [year(y)] and [month(m)] go through [$set]: the date is moved to the
    first of its month, the field is set, and the day of the month is put
    back, clamped to the length of the month reached. *)
Definition set_year (d : t) (y : Z) : t :=
  let date := ECMA.setFullYear (set_date d 1) y in
  set_date date (Z.min (date_of d) (daysInMonth date)).

Definition set_month (d : t) (m : Z) : t :=
  let date := ECMA.setMonth (set_date d 1) m in
  set_date date (Z.min (date_of d) (daysInMonth date)).

(** [startOf('year')] builds [new Date($y, 0, 1)]. *)
Definition startOf_year (d : t) : t := ECMA.DateCtor (year_of d) 0 1.

(** [add(n, 'day')] is [date(date() + n)]. *)
Definition add_day (d : t) (n : Z) : t := set_date d (date_of d + n).

(** [a.diff(b, 'day')]: the difference of the two instants, corrected by
    the difference of their zone offsets, in whole days. *)
Definition diff_day (a b : t) : Z := a - b.

Definition digit (c : ascii) : option Z :=
  let n := Z.of_N (N_of_ascii c) in
  if (48 <=? n) && (n <=? 57) then Some (n - 48) else None.

Definition separator (c : ascii) : bool :=
  (Ascii.eqb c "-") || (Ascii.eqb c "/").

(** [dayjs(string)].  A string that matches dayjs's own pattern
    [/^(\d{4})[-/]?(\d{1,2})?[-/]?(\d{0,2})...$/] becomes
    [new Date(d[1], d[2] - 1, d[3])] in local time; the model covers the
    ten-character shape year, month, day with separators, the only one of
    them the component writes.  Any other string dayjs hands to the
    engine's [Date] constructor, whose reading of it ECMAScript leaves to
    the implementation: [None]. *)
Definition parse (s : string) : option t :=
  match list_ascii_of_string s with
  | [y1; y2; y3; y4; s1; m1; m2; s2; d1; d2] =>
      if separator s1 && separator s2 then
        match digit y1, digit y2, digit y3, digit y4,
              digit m1, digit m2, digit d1, digit d2 with
        | Some a, Some b, Some c, Some e, Some f, Some g, Some h, Some i =>
            Some (ECMA.DateCtor (1000 * a + 100 * b + 10 * c + e)
                                (10 * f + g - 1) (10 * h + i))
        | _, _, _, _, _, _, _, _ => None
        end
      else None
  | _ => None
  end.

End Dayjs.

(** ** The proleptic Gregorian calendar, as the statements refer to it *)

(** Divisible by 4, and not by 100 unless by 400. *)
Definition isLeapYear (y : Z) : bool :=
  (y mod 4 =? 0) && (negb (y mod 100 =? 0) || (y mod 400 =? 0)).

(** Number of days of month [m] (0 = January) of year [y]. *)
Definition monthLength (y m : Z) : Z :=
  ECMA.monthStart (ECMA.LeapOfYear y) (m + 1) - ECMA.monthStart (ECMA.LeapOfYear y) m.

(** The day number of the civil date year [y], month [m] (0 = January),
    day [dt] of the month. *)
Definition civil (y m dt : Z) : Dayjs.t :=
  ECMA.DayFromYear y + ECMA.monthStart (ECMA.LeapOfYear y) m + dt - 1.

(** 1-indexed position of a date within its calendar year (1 = January 1),
    the day-of-year of the glossary. *)
Definition dayOfYearOf (d : Dayjs.t) : Z :=
  d - civil (Dayjs.year_of d) 0 1 + 1.

(** ** Helper functions of heatmap.tsx *)

Definition getDaysInYear (now : Dayjs.t) (year : Z) : Z :=
  let startOfYear := Dayjs.startOf_year (Dayjs.set_year now year) in
  let startOfNextYear := Dayjs.startOf_year (Dayjs.set_year now (year + 1)) in
  Dayjs.diff_day startOfNextYear startOfYear.

Definition getDaysInMonth (now : Dayjs.t) (year month : Z) : Z :=
  Dayjs.daysInMonth (Dayjs.set_month (Dayjs.set_year now year) month).

(** The template literal [`${year}-01-01`]. *)
Definition yearStartString (year : Z) : string :=
  NilZero.string_of_int (Z.to_int year) ++ "-01-01".

Definition getDateFromDayOfYear (year dayOfYear : Z) : option Dayjs.t :=
  match Dayjs.parse (yearStartString year) with
  | Some d => Some (Dayjs.add_day d (dayOfYear - 1))
  | None => None
  end.

Definition getStartColumnForDay (dayOfYear firstDayOffset : Z) : Z :=
  let dayIndex := dayOfYear - 1 in
  let gridIndex := dayIndex + firstDayOffset in
  let colIndex := gridIndex / 7 in
  colIndex + 1.

(** ** Constants *)

Definition MONTH_ABBREVIATIONS : list string :=
  ["Jan"; "Feb"; "Mar"; "Apr"; "May"; "Jun";
   "Jul"; "Aug"; "Sep"; "Oct"; "Nov"; "Dec"]%string.

Definition WEEKDAYS_MON_START : list string :=
  ["Mon"; "Tue"; "Wed"; "Thu"; "Fri"; "Sat"; "Sun"]%string.

Definition WEEKDAYS_SUN_START : list string :=
  ["Sun"; "Mon"; "Tue"; "Wed"; "Thu"; "Fri"; "Sat"]%string.

(** ** Prop types *)

(** [type WeekStartDay = "monday" | "sunday"]. *)
Inductive WeekStartDay := Monday | Sunday.

(** The union ["left" | "center" | "right"] of [weekDayLabelLayout]. *)
Inductive LabelLayout := LayoutLeft | LayoutCenter | LayoutRight.

(** The string literal each member of the union is at run time. *)
Definition layoutLiteral (l : LabelLayout) : string :=
  match l with
  | LayoutLeft => "left"
  | LayoutCenter => "center"
  | LayoutRight => "right"
  end.

Definition weekStartDayLiteral (w : WeekStartDay) : string :=
  match w with
  | Monday => "monday"
  | Sunday => "sunday"
  end.

Module DayCellProps.
Record t := mk {
  date : option Dayjs.t;
  dayOfYear : option Z;
  colIndex : Z;
  rowIndex : Z;
  isEmpty : bool
}.
End DayCellProps.

Module WeekdayLabelProps.
Record t := mk {
  index : Z;
  label : string;
  layout : LabelLayout;
  cellSize : Z
}.
End WeekdayLabelProps.

Module MonthLabelProps.
Record t := mk {
  index : Z;
  label : string;
  startCol : Z;
  span : Z
}.
End MonthLabelProps.

(** The optional props with a default in the parameter list of [Heatmap];
    the render callbacks and the style overlay do not enter the geometry. *)
Module HeatmapProps.
Record t := mk {
  year : option Z;
  weekStartDay : option WeekStartDay;
  cellSize : option Z;
  gap : option Z;
  containerGap : option Z;
  weekDayLabelLayout : option LabelLayout;
  className : option string;
  monthLabelMarginBottom : option Z
}.

Definition omitted : t := mk None None None None None None None None.
End HeatmapProps.

(** A destructuring default [x = d]. *)
Definition orDefault {A : Type} (o : option A) (d : A) : A :=
  match o with
  | Some x => x
  | None => d
  end.

(** The parameters of [Heatmap] once the defaults are applied. *)
Module Params.
Record t := mk {
  year : Z;
  weekStartDay : WeekStartDay;
  cellSize : Z;
  gap : Z;
  containerGap : Z;
  weekDayLabelLayout : LabelLayout;
  className : string;
  monthLabelMarginBottom : Z
}.
End Params.

Definition heatmapParams (p : HeatmapProps.t) : Params.t :=
  Params.mk
    (orDefault (HeatmapProps.year p) 2025)
    (orDefault (HeatmapProps.weekStartDay p) Sunday)
    (orDefault (HeatmapProps.cellSize p) 16)
    (orDefault (HeatmapProps.gap p) 4)
    (orDefault (HeatmapProps.containerGap p) 18)
    (orDefault (HeatmapProps.weekDayLabelLayout p) LayoutLeft)
    (orDefault (HeatmapProps.className p) EmptyString)
    (orDefault (HeatmapProps.monthLabelMarginBottom p) 4).

(** [justifyContent] in [DefaultWeekdayLabel]. *)
Definition justifyContent (layout : LabelLayout) : string :=
  match layout with
  | LayoutCenter => "center"
  | LayoutRight => "flex-end"
  | LayoutLeft => "flex-start"
  end.

(** ** The body of [Heatmap] *)

Module Config.
Record t := mk {
  getWeekday : Dayjs.t -> Z;
  labels : list string
}.
End Config.

Definition config (weekStartDay : WeekStartDay) : Config.t :=
  match weekStartDay with
  | Sunday => Config.mk (fun date => Dayjs.day date) WEEKDAYS_SUN_START
  | Monday => Config.mk (fun date => Dayjs.isoWeekday date - 1) WEEKDAYS_MON_START
  end.

(** [Math.ceil(n / 7)] on an integer [n]. *)
Definition ceilDiv7 (n : Z) : Z := - ((- n) / 7).

(** One turn of the loop that fills [monthStartCols]; the state is the
    array built so far and [cumulativeDays]. *)
Definition monthStartCols_step (daysInMonthArray : list Z) (firstDayOffset : Z)
    (st : list Z * Z) (i : nat) : list Z * Z :=
  let dayOfYear := snd st + 1 in
  let startCol := getStartColumnForDay dayOfYear firstDayOffset in
  (fst st ++ [startCol], snd st + nth i daysInMonthArray 0).

Definition monthStartCols_loop (daysInMonthArray : list Z) (firstDayOffset : Z)
    : list Z * Z :=
  fold_left (monthStartCols_step daysInMonthArray firstDayOffset) (seq 0 12) ([], 0).

Definition monthLabelProps (monthStartCols : list Z) (endCol : Z) (index : nat)
    : MonthLabelProps.t :=
  let startCol := nth index monthStartCols 0 in
  let nextStartCol :=
    if Nat.eqb index 11 then endCol else nth (index + 1) monthStartCols 0 in
  let span := nextStartCol - startCol in
  MonthLabelProps.mk (Z.of_nat index) (nth index MONTH_ABBREVIATIONS EmptyString)
                     startCol span.

Definition dayCellProps (year daysInYear firstDayOffset : Z) (colIdx rowIdx : nat)
    : DayCellProps.t :=
  let dayOfYear := Z.of_nat colIdx * 7 + Z.of_nat rowIdx + 1 - firstDayOffset in
  let isEmpty := (dayOfYear <=? 0) || (daysInYear <? dayOfYear) in
  let date := if isEmpty then None else getDateFromDayOfYear year dayOfYear in
  DayCellProps.mk date (if isEmpty then None else Some dayOfYear)
                  (Z.of_nat colIdx) (Z.of_nat rowIdx) isEmpty.

Definition weekdayLabelProps (cellSize : Z) (layout : LabelLayout)
    (index : nat) (label : string) : WeekdayLabelProps.t :=
  WeekdayLabelProps.mk (Z.of_nat index) label layout cellSize.

(** [xs.map((x, index) => f(index, x))]. *)
Fixpoint mapi_from {A B : Type} (f : nat -> A -> B) (i : nat) (xs : list A) : list B :=
  match xs with
  | [] => []
  | x :: xs' => f i x :: mapi_from f (S i) xs'
  end.

(** What one render pass computes: the core quantities and the descriptors
    handed to the renderers, the day cells column by column. *)
Module Rendered.
Record t := mk {
  daysInYear : Z;
  firstDayOfYear : Dayjs.t;
  firstDayOffset : Z;
  totalCols : Z;
  daysInMonthArray : list Z;
  monthStartCols : list Z;
  endCol : Z;
  weekdayLabels : list WeekdayLabelProps.t;
  monthLabels : list MonthLabelProps.t;
  dayCells : list (list DayCellProps.t)
}.
End Rendered.

(** [None] where the first day of the year is not dayjs's own reading of
    the date string (see [Dayjs.parse]). *)
Definition Heatmap (now : Dayjs.t) (props : HeatmapProps.t) : option Rendered.t :=
  let p := heatmapParams props in
  let year := Params.year p in
  let config := config (Params.weekStartDay p) in
  let daysInYear := getDaysInYear now year in
  match Dayjs.parse (yearStartString year) with
  | None => None
  | Some firstDayOfYear =>
      let firstDayOffset := Config.getWeekday config firstDayOfYear in
      let totalCols := ceilDiv7 (daysInYear + firstDayOffset) in
      let daysInMonthArray :=
        map (fun index => getDaysInMonth now year (Z.of_nat index)) (seq 0 12) in
      let monthStartCols := fst (monthStartCols_loop daysInMonthArray firstDayOffset) in
      let endCol := totalCols + 1 in
      Some (Rendered.mk daysInYear firstDayOfYear firstDayOffset totalCols
              daysInMonthArray monthStartCols endCol
              (mapi_from (weekdayLabelProps (Params.cellSize p)
                                            (Params.weekDayLabelLayout p))
                         0 (Config.labels config))
              (map (monthLabelProps monthStartCols endCol) (seq 0 12))
              (map (fun colIdx =>
                      map (dayCellProps year daysInYear firstDayOffset colIdx) (seq 0 7))
                   (seq 0 (Z.to_nat totalCols))))
  end.

(** The cell of column [colIdx], row [rowIdx] of the rendered grid. *)
Definition cellAt (g : Rendered.t) (colIdx rowIdx : nat) : option DayCellProps.t :=
  match nth_error (Rendered.dayCells g) colIdx with
  | Some column => nth_error column rowIdx
  | None => None
  end.

(** The descriptor of month [index]. *)
Definition monthAt (g : Rendered.t) (index : nat) : option MonthLabelProps.t :=
  nth_error (Rendered.monthLabels g) index.

(** The column boundaries of the month row: the start column of each of
    the twelve months, closed by the end column. *)
Definition monthBoundary (monthStartCols : list Z) (endCol : Z) (index : nat) : Z :=
  if (index <? 12)%nat then nth index monthStartCols 0 else endCol.

Definition sumZ (xs : list Z) : Z := fold_right Z.add 0 xs.

(** The years whose decimal form has four digits: for these the string
    [`${year}-01-01`] has the shape dayjs parses itself. *)
Definition supportedYear (year : Z) : Prop := 1000 <= year <= 9999.

(** [dayjs(`${year}-01-01`)] is January 1 of [year]. *)
Definition parsesToYearStart (year : Z) : bool :=
  match Dayjs.parse (yearStartString year) with
  | Some d => d =? civil year 0 1
  | None => false
  end.

(** The props of a call that passes [year] and [weekStartDay] only. *)
Definition yearProps (year : Z) (weekStartDay : WeekStartDay) : HeatmapProps.t :=
  HeatmapProps.mk (Some year) (Some weekStartDay) None None None None None None.

(** ** The default weekday label renderer *)

Inductive CssValue :=
| CssNumber (n : Z)
| CssString (s : string).

(** An object literal, as its entries in source order; a spread
    [...style] contributes the entries of [style], none when [style] is
    undefined. *)
Definition StyleObject := list (string * CssValue).

(** Reading a property: the last entry written for the key is the one the
    object holds. *)
Fixpoint objGet (key : string) (o : StyleObject) : option CssValue :=
  match o with
  | [] => None
  | (k, v) :: rest =>
      match objGet key rest with
      | Some v' => Some v'
      | None => if String.eqb key k then Some v else None
      end
  end.

Definition spreadStyle (style : option StyleObject) : StyleObject :=
  match style with
  | Some entries => entries
  | None => []
  end.

(** A rendered [div]: its inline style, its class and its text. *)
Module Element.
Record t := mk {
  style : StyleObject;
  className : string;
  text : string
}.
End Element.

(** [DefaultWeekdayLabel]; the [style] prop, which the descriptor record
    leaves out, is the second argument. *)
Definition DefaultWeekdayLabel (props : WeekdayLabelProps.t)
    (style : option StyleObject) : Element.t :=
  Element.mk
    ([("height"%string, CssNumber (WeekdayLabelProps.cellSize props));
      ("justifyContent"%string,
       CssString (justifyContent (WeekdayLabelProps.layout props)))]
     ++ spreadStyle style)
    "flex items-center text-xs text-gray-500"
    (WeekdayLabelProps.label props).

(** The lengths of the twelve months of a year whose February has
    [february] days. *)
Definition monthLengths (february : Z) : list Z :=
  [31; february; 31; 30; 31; 30; 31; 31; 30; 31; 30; 31].

(** * Facts about the date arithmetic *)

Import ECMA.

Ltac split_ltb :=
  repeat match goal with
         | |- context [?a <? ?b] => destruct (Z.ltb_spec a b)
         end.

Ltac month_table :=
  change (0 + 1) with 1 in *; change (1 + 1) with 2 in *; change (2 + 1) with 3 in *;
  change (3 + 1) with 4 in *; change (4 + 1) with 5 in *; change (5 + 1) with 6 in *;
  change (6 + 1) with 7 in *; change (7 + 1) with 8 in *; change (8 + 1) with 9 in *;
  change (9 + 1) with 10 in *; change (10 + 1) with 11 in *;
  change (11 + 1) with 12 in *;
  cbv beta iota delta [monthStart] in *.

(** The model on a few dates: day 20000 is Friday 2024-10-04; February has
    29 days in 2024 and 28 in 2025, also when the current day is the 31st
    of a month; the start columns of the months of 2024, Sunday-start. *)
Example day_20000_fields :
  Dayjs.year_of 20000 = 2024 /\ Dayjs.month_of 20000 = 9 /\
  Dayjs.date_of 20000 = 4 /\ Dayjs.day 20000 = 5.
Proof. repeat split. Qed.

Example getDaysInMonth_february :
  getDaysInMonth 20000 2024 1 = 29 /\ getDaysInMonth 20000 2025 1 = 28 /\
  getDaysInMonth (civil 2023 0 31) 2024 1 = 29.
Proof. repeat split. Qed.

Example monthStartCols_2024 :
  option_map Rendered.monthStartCols (Heatmap 20000 (yearProps 2024 Sunday))
  = Some [1; 5; 9; 14; 18; 22; 27; 31; 36; 40; 44; 49].
Proof. vm_compute. reflexivity. Qed.

Lemma DaysInYear_cases y : DaysInYear y = 365 \/ DaysInYear y = 366.
Proof.
  unfold DaysInYear.
  destruct (y mod 4 =? 0), (y mod 100 =? 0), (y mod 400 =? 0); simpl; auto.
Qed.

Lemma LeapOfYear_cases y : LeapOfYear y = 0 \/ LeapOfYear y = 1.
Proof. unfold LeapOfYear. destruct (DaysInYear_cases y); lia. Qed.

Lemma mod100_mod4 y : y mod 100 = 0 -> y mod 4 = 0.
Proof. intros. Z.to_euclidean_division_equations; lia. Qed.

Lemma mod400_mod100 y : y mod 400 = 0 -> y mod 100 = 0.
Proof. intros. Z.to_euclidean_division_equations; lia. Qed.

Lemma DaysInYear_leap y : DaysInYear y = if isLeapYear y then 366 else 365.
Proof.
  unfold DaysInYear, isLeapYear.
  destruct (Z.eqb_spec (y mod 4) 0) as [H4|H4],
           (Z.eqb_spec (y mod 100) 0) as [H100|H100],
           (Z.eqb_spec (y mod 400) 0) as [H400|H400]; simpl; try reflexivity.
  all: exfalso; auto using mod100_mod4, mod400_mod100.
Qed.

Lemma step4 y : (y + 1 - 1969) / 4 = (y - 1969) / 4 + (if y mod 4 =? 0 then 1 else 0).
Proof. destruct (Z.eqb_spec (y mod 4) 0); Z.to_euclidean_division_equations; lia. Qed.

Lemma step100 y : (y + 1 - 1901) / 100 = (y - 1901) / 100 + (if y mod 100 =? 0 then 1 else 0).
Proof. destruct (Z.eqb_spec (y mod 100) 0); Z.to_euclidean_division_equations; lia. Qed.

Lemma step400 y : (y + 1 - 1601) / 400 = (y - 1601) / 400 + (if y mod 400 =? 0 then 1 else 0).
Proof. destruct (Z.eqb_spec (y mod 400) 0); Z.to_euclidean_division_equations; lia. Qed.

Lemma DayFromYear_succ y : DayFromYear (y + 1) = DayFromYear y + DaysInYear y.
Proof.
  unfold DayFromYear. rewrite step4, step100, step400.
  unfold DaysInYear.
  destruct (Z.eqb_spec (y mod 4) 0) as [H4|H4],
           (Z.eqb_spec (y mod 100) 0) as [H100|H100],
           (Z.eqb_spec (y mod 400) 0) as [H400|H400]; cbv [negb]; try lia.
  all: exfalso; auto using mod100_mod4, mod400_mod100.
Qed.

Lemma DayFromYear_bounds y :
  146097 * (y - 1970) - 506 <= 400 * DayFromYear y <= 146097 * (y - 1970) + 589.
Proof. unfold DayFromYear. Z.to_euclidean_division_equations. lia. Qed.

Lemma DayFromYear_add_nat y (n : nat) :
  DayFromYear y + 365 * Z.of_nat n <= DayFromYear (y + Z.of_nat n).
Proof.
  induction n as [|n IH].
  - replace (y + Z.of_nat 0) with y by lia. lia.
  - replace (y + Z.of_nat (S n)) with (y + Z.of_nat n + 1) by lia.
    rewrite DayFromYear_succ. destruct (DaysInYear_cases (y + Z.of_nat n)); lia.
Qed.

Lemma DayFromYear_lt y y' : y < y' -> DayFromYear y < DayFromYear y'.
Proof.
  intros H. pose proof (DayFromYear_add_nat y (Z.to_nat (y' - y))) as Hn.
  rewrite Z2Nat.id in Hn by lia. replace (y + (y' - y)) with y' in Hn by lia. lia.
Qed.

Lemma DayFromYear_le y y' : y <= y' -> DayFromYear y <= DayFromYear y'.
Proof.
  intros H. destruct (Z.eq_dec y y') as [->|]; [lia|].
  apply Z.lt_le_incl, DayFromYear_lt. lia.
Qed.

Lemma YearFromDay_spec d :
  DayFromYear (YearFromDay d) <= d < DayFromYear (YearFromDay d + 1).
Proof.
  unfold YearFromDay.
  set (q := 400 * d / 146097).
  assert (Hq : 146097 * q <= 400 * d < 146097 * (q + 1))
    by (subst q; Z.to_euclidean_division_equations; lia).
  pose proof (DayFromYear_bounds (1970 + q - 1)).
  pose proof (DayFromYear_bounds (1970 + q + 1 + 1)).
  destruct (Z.ltb_spec d (DayFromYear (1970 + q))).
  - replace (1970 + q - 1 + 1) with (1970 + q) by lia. lia.
  - destruct (Z.leb_spec (DayFromYear (1970 + q + 1)) d); lia.
Qed.

Lemma YearFromDay_unique d y :
  DayFromYear y <= d < DayFromYear (y + 1) -> YearFromDay d = y.
Proof.
  intros H. pose proof (YearFromDay_spec d) as Hs.
  destruct (Z.lt_trichotomy (YearFromDay d) y) as [Hlt|[Heq|Hgt]]; [|assumption|].
  - pose proof (DayFromYear_le (YearFromDay d + 1) y). lia.
  - pose proof (DayFromYear_le (y + 1) (YearFromDay d)). lia.
Qed.

Lemma day_in_year y n :
  0 <= n < DaysInYear y ->
  YearFromDay (DayFromYear y + n) = y /\
  DayWithinYear (DayFromYear y + n) = n /\
  InLeapYear (DayFromYear y + n) = LeapOfYear y.
Proof.
  intros H.
  assert (Hy : YearFromDay (DayFromYear y + n) = y)
    by (apply YearFromDay_unique; rewrite DayFromYear_succ; lia).
  unfold DayWithinYear, InLeapYear. rewrite Hy. repeat split; lia.
Qed.

Lemma DayWithinYear_range d : 0 <= DayWithinYear d < 365 + InLeapYear d.
Proof.
  unfold DayWithinYear, InLeapYear, LeapOfYear.
  pose proof (YearFromDay_spec d) as H. rewrite DayFromYear_succ in H. lia.
Qed.

Lemma MonthFromDay_range d : 0 <= MonthFromDay d <= 11.
Proof. unfold MonthFromDay. split_ltb; lia. Qed.

Lemma MonthFromDay_spec d :
  monthStart (InLeapYear d) (MonthFromDay d) <= DayWithinYear d
    < monthStart (InLeapYear d) (MonthFromDay d + 1).
Proof.
  pose proof (DayWithinYear_range d).
  unfold MonthFromDay. split_ltb; month_table; lia.
Qed.

Lemma month_cases m :
  0 <= m <= 11 ->
  m = 0 \/ m = 1 \/ m = 2 \/ m = 3 \/ m = 4 \/ m = 5 \/
  m = 6 \/ m = 7 \/ m = 8 \/ m = 9 \/ m = 10 \/ m = 11.
Proof. lia. Qed.

Ltac each_month H :=
  apply month_cases in H;
  repeat (destruct H as [H|H]; [subst|]); [..|subst].

Lemma monthLength_range y m : 0 <= m <= 11 -> 28 <= monthLength y m <= 31.
Proof.
  intros H. unfold monthLength. destruct (LeapOfYear_cases y) as [-> | ->].
  all: each_month H; month_table; lia.
Qed.

Lemma monthStart_range l m :
  0 <= l <= 1 -> 0 <= m <= 11 ->
  0 <= monthStart l m /\ monthStart l (m + 1) <= 365 + l.
Proof. intros Hl H. each_month H; month_table; lia. Qed.

Lemma MonthFromDay_unique d m :
  0 <= m <= 11 ->
  monthStart (InLeapYear d) m <= DayWithinYear d < monthStart (InLeapYear d) (m + 1) ->
  MonthFromDay d = m.
Proof.
  intros Hm H. unfold MonthFromDay.
  assert (Hl : 0 <= InLeapYear d <= 1)
    by (unfold InLeapYear; destruct (LeapOfYear_cases (YearFromDay d)); lia).
  each_month Hm; month_table; split_ltb; lia.
Qed.


Lemma civil_fields y m dt :
  0 <= m <= 11 -> 1 <= dt <= monthLength y m ->
  YearFromDay (civil y m dt) = y /\
  MonthFromDay (civil y m dt) = m /\
  DateFromDay (civil y m dt) = dt.
Proof.
  intros Hm Hdt. unfold monthLength in Hdt.
  assert (Hl : 0 <= LeapOfYear y <= 1) by (destruct (LeapOfYear_cases y); lia).
  pose proof (monthStart_range (LeapOfYear y) m Hl Hm) as Hr.
  set (n := monthStart (LeapOfYear y) m + dt - 1).
  assert (Hn : 0 <= n < DaysInYear y) by (unfold LeapOfYear in *; lia).
  assert (Hc : civil y m dt = DayFromYear y + n) by (unfold civil; lia).
  destruct (day_in_year y n Hn) as (Hy & Hw & Hi).
  rewrite Hc.
  assert (Hmo : MonthFromDay (DayFromYear y + n) = m)
    by (apply MonthFromDay_unique; [assumption|rewrite Hw, Hi; lia]).
  unfold DateFromDay. rewrite Hy, Hmo, Hw, Hi. repeat split; lia.
Qed.

Lemma MakeDay_civil y m dt : 0 <= m <= 11 -> MakeDay y m dt = civil y m dt.
Proof.
  intros Hm. unfold MakeDay, civil.
  rewrite (Z.div_small m 12), (Z.mod_small m 12) by lia.
  replace (y + 0) with y by lia. reflexivity.
Qed.

Lemma MakeDay_month_end y m :
  0 <= m <= 11 -> MakeDay y (m + 1) 0 = civil y m (monthLength y m).
Proof.
  intros Hm. destruct (Z.eq_dec m 11) as [->|Hne].
  - unfold MakeDay, civil, monthLength. change ((11 + 1) / 12) with 1.
    change ((11 + 1) mod 12) with 0. rewrite DayFromYear_succ.
    unfold LeapOfYear. month_table. lia.
  - rewrite MakeDay_civil by lia. unfold civil, monthLength. lia.
Qed.

Lemma civil_decompose d :
  civil (YearFromDay d) (MonthFromDay d) (DateFromDay d) = d.
Proof. unfold civil, DateFromDay, DayWithinYear, InLeapYear. lia. Qed.

Lemma DateFromDay_range d :
  1 <= DateFromDay d <= monthLength (YearFromDay d) (MonthFromDay d).
Proof.
  pose proof (MonthFromDay_spec d) as H.
  unfold DateFromDay, monthLength. unfold InLeapYear in *. lia.
Qed.

Lemma setDate_shift d n : setDate d n = d - DateFromDay d + n.
Proof.
  unfold setDate. rewrite MakeDay_civil by apply MonthFromDay_range.
  pose proof (civil_decompose d) as H. unfold civil in *. lia.
Qed.

Lemma fullYear_leap y : LeapOfYear (fullYear y) <= LeapOfYear y.
Proof.
  unfold fullYear.
  destruct (Z.leb_spec 0 y), (Z.leb_spec y 99); cbv [andb]; try lia.
  assert (E1 : (1900 + y) mod 4 = y mod 4) by (Z.to_euclidean_division_equations; lia).
  assert (E2 : (1900 + y) mod 100 = y) by (Z.to_euclidean_division_equations; lia).
  assert (E3 : (1900 + y) mod 400 = 300 + y) by (Z.to_euclidean_division_equations; lia).
  assert (E4 : y mod 100 = y) by (apply Z.mod_small; lia).
  assert (E5 : y mod 400 = y) by (apply Z.mod_small; lia).
  unfold LeapOfYear, DaysInYear. rewrite E1, E2, E3, E4, E5.
  destruct (Z.eqb_spec (y mod 4) 0), (Z.eqb_spec y 0), (Z.eqb_spec (300 + y) 0);
    cbv [negb]; lia.
Qed.

Lemma monthLength_leap_mono y y' m :
  0 <= m <= 11 -> LeapOfYear y <= LeapOfYear y' -> monthLength y m <= monthLength y' m.
Proof.
  intros Hm Hl. unfold monthLength.
  destruct (LeapOfYear_cases y) as [Hy|Hy], (LeapOfYear_cases y') as [Hy'|Hy'];
    rewrite Hy, Hy' in *; try lia.
  all: each_month Hm; month_table; lia.
Qed.

Lemma setDate_fields d n :
  1 <= n <= monthLength (YearFromDay d) (MonthFromDay d) ->
  YearFromDay (setDate d n) = YearFromDay d /\
  MonthFromDay (setDate d n) = MonthFromDay d /\
  DateFromDay (setDate d n) = n.
Proof.
  intros Hn. unfold setDate.
  rewrite MakeDay_civil by apply MonthFromDay_range.
  apply civil_fields; [apply MonthFromDay_range|assumption].
Qed.

Lemma month_end_fields y m :
  0 <= m <= 11 ->
  DateFromDay (MakeDay y (m + 1) 0) = monthLength y m.
Proof.
  intros Hm. rewrite MakeDay_month_end by assumption.
  apply civil_fields; [assumption|].
  pose proof (monthLength_range y m Hm). lia.
Qed.

(** * Facts about the dayjs operations *)

Lemma year_of_eq d : Dayjs.year_of d = YearFromDay d.
Proof. reflexivity. Qed.

Lemma month_of_eq d : Dayjs.month_of d = MonthFromDay d.
Proof. reflexivity. Qed.

Lemma date_of_eq d : Dayjs.date_of d = DateFromDay d.
Proof. reflexivity. Qed.

Lemma add_day_shift d n : Dayjs.add_day d n = d + n.
Proof. unfold Dayjs.add_day, Dayjs.set_date, Dayjs.date_of. rewrite setDate_shift. lia. Qed.

Lemma daysInMonth_length d :
  Dayjs.daysInMonth d = monthLength (fullYear (YearFromDay d)) (MonthFromDay d).
Proof.
  unfold Dayjs.daysInMonth, Dayjs.endOf_month, DateCtor, Dayjs.date_of,
    Dayjs.month_of, Dayjs.year_of.
  apply month_end_fields, MonthFromDay_range.
Qed.

Lemma clamp_fields y m dt :
  0 <= m <= 11 -> 1 <= dt ->
  YearFromDay (setDate (civil y m 1) (Z.min dt (Dayjs.daysInMonth (civil y m 1)))) = y /\
  MonthFromDay (setDate (civil y m 1) (Z.min dt (Dayjs.daysInMonth (civil y m 1)))) = m.
Proof.
  intros Hm Hdt.
  pose proof (monthLength_range y m Hm) as Hlen.
  destruct (civil_fields y m 1 Hm) as (Hy & Hmo & _); [lia|].
  pose proof (daysInMonth_length (civil y m 1)) as Hdim.
  rewrite Hy, Hmo in Hdim.
  pose proof (monthLength_leap_mono (fullYear y) y m Hm (fullYear_leap y)) as Hle.
  pose proof (monthLength_range (fullYear y) m Hm) as Hlen'.
  destruct (setDate_fields (civil y m 1) (Z.min dt (Dayjs.daysInMonth (civil y m 1))))
    as (Hy' & Hm' & _).
  - rewrite Hy, Hmo, Hdim. lia.
  - rewrite Hy', Hm', Hy, Hmo. split; reflexivity.
Qed.

Lemma set_year_fields d y :
  Dayjs.year_of (Dayjs.set_year d y) = y /\
  Dayjs.month_of (Dayjs.set_year d y) = Dayjs.month_of d.
Proof.
  unfold Dayjs.year_of, Dayjs.month_of, Dayjs.set_year, Dayjs.set_date, Dayjs.date_of.
  cbv zeta.
  pose proof (MonthFromDay_range d) as Hm.
  pose proof (monthLength_range (YearFromDay d) (MonthFromDay d) Hm) as Hlen.
  destruct (setDate_fields d 1) as (Hy1 & Hm1 & Hd1); [lia|].
  assert (Hdate : setFullYear (setDate d 1) y = civil y (MonthFromDay d) 1).
  { unfold setFullYear. rewrite Hm1, Hd1. apply MakeDay_civil, Hm. }
  rewrite Hdate.
  apply clamp_fields; [assumption|].
  pose proof (DateFromDay_range d). lia.
Qed.

Lemma set_month_fields d m :
  0 <= m <= 11 ->
  Dayjs.year_of (Dayjs.set_month d m) = Dayjs.year_of d /\
  Dayjs.month_of (Dayjs.set_month d m) = m.
Proof.
  intros Hm.
  unfold Dayjs.year_of, Dayjs.month_of, Dayjs.set_month, Dayjs.set_date, Dayjs.date_of.
  cbv zeta.
  pose proof (MonthFromDay_range d) as Hm0.
  pose proof (monthLength_range (YearFromDay d) (MonthFromDay d) Hm0) as Hlen.
  destruct (setDate_fields d 1) as (Hy1 & Hm1 & Hd1); [lia|].
  assert (Hdate : setMonth (setDate d 1) m = civil (YearFromDay d) m 1).
  { unfold setMonth. rewrite Hy1, Hd1. apply MakeDay_civil, Hm. }
  rewrite Hdate.
  apply clamp_fields; [assumption|].
  pose proof (DateFromDay_range d). lia.
Qed.

Lemma startOf_year_day d :
  Dayjs.startOf_year d = DayFromYear (fullYear (Dayjs.year_of d)).
Proof.
  unfold Dayjs.startOf_year, DateCtor. rewrite MakeDay_civil by lia.
  unfold civil. month_table. lia.
Qed.

(** * Facts about the helper functions *)

Lemma getDaysInYear_span now year :
  getDaysInYear now year =
  DayFromYear (fullYear (year + 1)) - DayFromYear (fullYear year).
Proof.
  unfold getDaysInYear, Dayjs.diff_day. rewrite !startOf_year_day.
  destruct (set_year_fields now year) as [-> _].
  destruct (set_year_fields now (year + 1)) as [-> _]. reflexivity.
Qed.

Lemma getDaysInMonth_length now year month :
  0 <= month <= 11 ->
  getDaysInMonth now year month = monthLength (fullYear year) month.
Proof.
  intros Hm. unfold getDaysInMonth. rewrite daysInMonth_length.
  destruct (set_month_fields (Dayjs.set_year now year) month Hm) as [Hy Hmo].
  destruct (set_year_fields now year) as [Hy' _].
  rewrite <- year_of_eq, <- month_of_eq, Hmo, Hy, Hy'. reflexivity.
Qed.

Lemma fullYear_id y : y < 0 \/ 99 < y -> fullYear y = y.
Proof.
  intros H. unfold fullYear.
  destruct (Z.leb_spec 0 y), (Z.leb_spec y 99); cbv [andb]; lia.
Qed.

Lemma getDaysInYear_DaysInYear now year :
  year < -1 \/ 99 < year -> getDaysInYear now year = DaysInYear year.
Proof.
  intros H. rewrite getDaysInYear_span, !fullYear_id by lia.
  rewrite DayFromYear_succ. lia.
Qed.

Lemma civil_year_start y : civil y 0 1 = DayFromYear y.
Proof. unfold civil. month_table. lia. Qed.

Lemma four_digit_years_parse :
  forallb parsesToYearStart (map Z.of_nat (seq (Z.to_nat 1000) (Z.to_nat 9000))) = true.
Proof. vm_compute. reflexivity. Qed.

Lemma parse_yearStartString year :
  supportedYear year -> Dayjs.parse (yearStartString year) = Some (civil year 0 1).
Proof.
  intros [Hlo Hhi].
  pose proof four_digit_years_parse as H. rewrite forallb_forall in H.
  specialize (H year). unfold parsesToYearStart in H.
  destruct (Dayjs.parse (yearStartString year)) as [d|].
  - f_equal. apply Z.eqb_eq, H, in_map_iff. exists (Z.to_nat year).
    split; [lia|]. apply in_seq. lia.
  - assert (false = true) as Hf; [|discriminate Hf].
    apply H, in_map_iff. exists (Z.to_nat year). split; [lia|]. apply in_seq. lia.
Qed.

(** * Facts about the component *)

Lemma WeekDay_range d : 0 <= WeekDay d <= 6.
Proof. unfold WeekDay. pose proof (Z.mod_pos_bound (d + 4) 7). lia. Qed.

Lemma getWeekday_range ws d : 0 <= Config.getWeekday (config ws) d <= 6.
Proof.
  pose proof (WeekDay_range d) as H.
  destruct ws; cbn [config Config.getWeekday]; unfold Dayjs.isoWeekday, Dayjs.day.
  - destruct (Z.eqb_spec (WeekDay d) 0); lia.
  - assumption.
Qed.

Lemma daysInMonthArray_lengths now year :
  year < 0 \/ 99 < year ->
  map (fun index => getDaysInMonth now year (Z.of_nat index)) (seq 0 12) =
  map (fun index => monthLength year (Z.of_nat index)) (seq 0 12).
Proof.
  intros Hy. apply map_ext_in. intros i Hi. apply in_seq in Hi.
  rewrite getDaysInMonth_length, fullYear_id by lia. reflexivity.
Qed.

(** The loop leaves in [monthStartCols] the start column of the first day
    of each month, [cumulativeDays] being the days of the months before. *)
Lemma monthStartCols_table year off :
  fst (monthStartCols_loop
         (map (fun index => monthLength year (Z.of_nat index)) (seq 0 12)) off) =
  map (fun index =>
         getStartColumnForDay (monthStart (LeapOfYear year) (Z.of_nat index) + 1) off)
      (seq 0 12).
Proof.
  cbv [monthStartCols_loop seq map fold_left monthStartCols_step fst snd nth app
       Z.of_nat Pos.of_succ_nat Pos.succ].
  unfold monthLength. month_table.
  repeat (f_equal; try lia).
Qed.

Lemma Heatmap_render now year ws :
  supportedYear year ->
  exists g,
    Heatmap now (yearProps year ws) = Some g /\
    Rendered.daysInYear g = DaysInYear year /\
    Rendered.firstDayOfYear g = civil year 0 1 /\
    Rendered.firstDayOffset g = Config.getWeekday (config ws) (civil year 0 1) /\
    Rendered.totalCols g = ceilDiv7 (DaysInYear year + Rendered.firstDayOffset g) /\
    Rendered.monthStartCols g =
      map (fun index =>
             getStartColumnForDay (monthStart (LeapOfYear year) (Z.of_nat index) + 1)
                                  (Rendered.firstDayOffset g))
          (seq 0 12) /\
    Rendered.endCol g = Rendered.totalCols g + 1 /\
    Rendered.monthLabels g =
      map (monthLabelProps (Rendered.monthStartCols g) (Rendered.endCol g)) (seq 0 12) /\
    Rendered.dayCells g =
      map (fun colIdx =>
             map (dayCellProps year (Rendered.daysInYear g) (Rendered.firstDayOffset g)
                               colIdx)
                 (seq 0 7))
          (seq 0 (Z.to_nat (Rendered.totalCols g))) /\
    Rendered.daysInMonthArray g =
      map (fun index => monthLength year (Z.of_nat index)) (seq 0 12).
Proof.
  intros Hy. pose proof Hy as [Hlo Hhi].
  unfold Heatmap, yearProps, heatmapParams.
  cbn [Params.year Params.weekStartDay Params.cellSize Params.weekDayLabelLayout
       orDefault HeatmapProps.year HeatmapProps.weekStartDay HeatmapProps.cellSize
       HeatmapProps.weekDayLabelLayout].
  cbv zeta.
  rewrite (parse_yearStartString year Hy).
  rewrite daysInMonthArray_lengths, monthStartCols_table by lia.
  rewrite getDaysInYear_DaysInYear by lia.
  eexists. split; [reflexivity|].
  cbn [Rendered.daysInYear Rendered.firstDayOfYear Rendered.firstDayOffset
       Rendered.totalCols Rendered.monthStartCols Rendered.endCol
       Rendered.monthLabels Rendered.dayCells Rendered.daysInMonthArray].
  repeat split; reflexivity.
Qed.

Lemma cellAt_grid g year diy off cols :
  Rendered.dayCells g =
    map (fun colIdx => map (dayCellProps year diy off colIdx) (seq 0 7)) (seq 0 cols) ->
  forall c r,
    cellAt g c r =
    if (c <? cols)%nat && (r <? 7)%nat then Some (dayCellProps year diy off c r)
    else None.
Proof.
  intros Hg c r. unfold cellAt. rewrite Hg, nth_error_map, nth_error_seq.
  destruct (Nat.ltb_spec c cols); cbn [option_map andb]; [|reflexivity].
  rewrite nth_error_map, nth_error_seq.
  destruct (Nat.ltb_spec r 7); reflexivity.
Qed.

Lemma monthAt_labels g :
  Rendered.monthLabels g =
    map (monthLabelProps (Rendered.monthStartCols g) (Rendered.endCol g)) (seq 0 12) ->
  forall i,
    monthAt g i =
    if (i <? 12)%nat
    then Some (monthLabelProps (Rendered.monthStartCols g) (Rendered.endCol g) i)
    else None.
Proof.
  intros Hg i. unfold monthAt. rewrite Hg, nth_error_map, nth_error_seq.
  destruct (Nat.ltb_spec i 12); reflexivity.
Qed.

(** * The start column of a day *)

(** C1. For every day of the year from 1 on and every first-day offset
    from 0 to 6, the start column is [floor((dayOfYear - 1 + offset) / 7) + 1],
    a 1-indexed column; it never decreases when the day grows, and it grows
    by exactly 1 when the day grows by 7. *)
Theorem startColumnForDay_formula_monotone (dayOfYear firstDayOffset : Z) :
  1 <= dayOfYear -> 0 <= firstDayOffset <= 6 ->
  getStartColumnForDay dayOfYear firstDayOffset
    = (dayOfYear - 1 + firstDayOffset) / 7 + 1 /\
  1 <= getStartColumnForDay dayOfYear firstDayOffset /\
  (forall later, dayOfYear <= later ->
     getStartColumnForDay dayOfYear firstDayOffset
       <= getStartColumnForDay later firstDayOffset) /\
  getStartColumnForDay (dayOfYear + 7) firstDayOffset
    = getStartColumnForDay dayOfYear firstDayOffset + 1.
Proof.
  intros Hd Ho. unfold getStartColumnForDay. repeat split.
  - pose proof (Z.div_pos (dayOfYear - 1 + firstDayOffset) 7). lia.
  - intros later Hl.
    pose proof (Z.div_le_mono (dayOfYear - 1 + firstDayOffset)
                              (later - 1 + firstDayOffset) 7).
    lia.
  - replace (dayOfYear + 7 - 1 + firstDayOffset)
      with (dayOfYear - 1 + firstDayOffset + 1 * 7) by lia.
    rewrite Z.div_add by lia. lia.
Qed.

Lemma startColumnForDay_formula_monotone_witness :
  getStartColumnForDay 8 0 = (8 - 1 + 0) / 7 + 1 /\
  1 <= getStartColumnForDay 8 0 /\
  (forall later, 8 <= later ->
     getStartColumnForDay 8 0 <= getStartColumnForDay later 0) /\
  getStartColumnForDay (8 + 7) 0 = getStartColumnForDay 8 0 + 1.
Proof. apply (startColumnForDay_formula_monotone 8 0); lia. Defined.

(** * The number of days of a year *)

Lemma DaysInYear_two_digit y : 1 <= y <= 99 -> DaysInYear (1900 + y) = DaysInYear y.
Proof.
  intros Hy.
  assert (E1 : (1900 + y) mod 4 = y mod 4) by (Z.to_euclidean_division_equations; lia).
  assert (E2 : (1900 + y) mod 100 = y) by (Z.to_euclidean_division_equations; lia).
  assert (E4 : y mod 100 = y) by (apply Z.mod_small; lia).
  unfold DaysInYear. rewrite E1, E2, E4.
  destruct (Z.eqb_spec (y mod 4) 0), (Z.eqb_spec y 0); cbv [negb]; try lia; reflexivity.
Qed.

(** What [getDaysInYear] returns at the three years it gets wrong, for
    every current day: [startOf('year')] rebuilds the date from the year
    number, and the [Date] constructor reads 0 to 99 as 1900 to 1999. *)
Lemma getDaysInYear_year_minus_1 now : getDaysInYear now (-1) = 694326.
Proof. rewrite getDaysInYear_span. reflexivity. Qed.

Lemma getDaysInYear_year_0 now : getDaysInYear now 0 = 365.
Proof. rewrite getDaysInYear_span. reflexivity. Qed.

Lemma getDaysInYear_year_99 now : getDaysInYear now 99 = -693595.
Proof. rewrite getDaysInYear_span. reflexivity. Qed.




(** * The weekday offset *)

Lemma isoWeekday_cases d :
  (Dayjs.day d = 0 /\ Dayjs.isoWeekday d = 7) \/
  (1 <= Dayjs.day d <= 6 /\ Dayjs.isoWeekday d = Dayjs.day d).
Proof.
  unfold Dayjs.isoWeekday. pose proof (WeekDay_range d) as H.
  unfold Dayjs.day in *. destruct (Z.eqb_spec (WeekDay d) 0); [left|right]; lia.
Qed.

Lemma weekday_labels_rotate n :
  0 <= n <= 6 ->
  nth_error WEEKDAYS_MON_START (Z.to_nat ((n + 6) mod 7)) =
  nth_error WEEKDAYS_SUN_START (Z.to_nat n).
Proof.
  intros H.
  assert (C : n = 0 \/ n = 1 \/ n = 2 \/ n = 3 \/ n = 4 \/ n = 5 \/ n = 6) by lia.
  repeat (destruct C as [C|C]; [subst n; reflexivity|]). subst n. reflexivity.
Qed.

(** C7. For every date, the offset under Sunday-start is the weekday number
    of the date, 0 = Sunday ... 6 = Saturday; under Monday-start it is the
    ISO weekday, 1 = Monday ... 7 = Sunday, minus 1, which is the rotation
    Monday -> 0 ... Sunday -> 6: both conventions give the date the row of
    its own weekday label. *)
Theorem weekday_offset_conventions (date : Dayjs.t) :
  Config.getWeekday (config Sunday) date = Dayjs.day date /\
  0 <= Dayjs.day date <= 6 /\
  nth_error WEEKDAYS_SUN_START 0 = Some "Sun"%string /\
  nth_error WEEKDAYS_SUN_START 6 = Some "Sat"%string /\
  Config.getWeekday (config Monday) date = Dayjs.isoWeekday date - 1 /\
  ((Dayjs.day date = 0 /\ Dayjs.isoWeekday date = 7) \/
   (1 <= Dayjs.day date <= 6 /\ Dayjs.isoWeekday date = Dayjs.day date)) /\
  Config.getWeekday (config Monday) date = (Dayjs.day date + 6) mod 7 /\
  nth_error (Config.labels (config Monday))
            (Z.to_nat (Config.getWeekday (config Monday) date)) =
  nth_error (Config.labels (config Sunday))
            (Z.to_nat (Config.getWeekday (config Sunday) date)).
Proof.
  pose proof (WeekDay_range date) as Hr.
  pose proof (isoWeekday_cases date) as Hi.
  assert (Hrot : Dayjs.isoWeekday date - 1 = (Dayjs.day date + 6) mod 7).
  { unfold Dayjs.day in *.
    destruct Hi as [[H0 H7]|[H16 Hsame]].
    - rewrite H0, H7. reflexivity.
    - rewrite Hsame. Z.to_euclidean_division_equations. lia. }
  cbn [config Config.getWeekday Config.labels].
  repeat split; try reflexivity; try assumption; try apply Hr.
  rewrite Hrot. apply weekday_labels_rotate, Hr.
Qed.

(** The weekday numbers are those of the calendar: 1970-01-01, day 0, was a
    Thursday, and the number advances by one, cyclically, with each day. *)
Lemma day_epoch_and_step d :
  Dayjs.day 0 = 4 /\ Dayjs.day (d + 1) = (Dayjs.day d + 1) mod 7.
Proof.
  split; [reflexivity|]. unfold Dayjs.day, WeekDay.
  Z.to_euclidean_division_equations. lia.
Qed.

(** * The two scenarios of the year 2024 and the year 2025 *)

(** C8. In 2024 with Sunday-start the year has 366 days, January 1 is a
    Monday, the first-day offset is 1 and the grid has
    [ceil((366 + 1) / 7) = 53] columns; in 2025 with Monday-start the year
    has 365 days, January 1 is a Wednesday, ISO weekday 3, the offset is 2
    and the grid has [ceil((365 + 2) / 7) = 53] columns. *)
Theorem scenarios_2024_2025 (now : Dayjs.t) :
  (exists g,
     Heatmap now (yearProps 2024 Sunday) = Some g /\
     Rendered.daysInYear g = 366 /\
     Rendered.firstDayOfYear g = civil 2024 0 1 /\
     Dayjs.day (Rendered.firstDayOfYear g) = 1 /\
     Rendered.firstDayOffset g = 1 /\
     Rendered.totalCols g = 53 /\
     ceilDiv7 (366 + 1) = 53) /\
  (exists g,
     Heatmap now (yearProps 2025 Monday) = Some g /\
     Rendered.daysInYear g = 365 /\
     Rendered.firstDayOfYear g = civil 2025 0 1 /\
     Dayjs.day (Rendered.firstDayOfYear g) = 3 /\
     Dayjs.isoWeekday (Rendered.firstDayOfYear g) = 3 /\
     Rendered.firstDayOffset g = 2 /\
     Rendered.totalCols g = 53 /\
     ceilDiv7 (365 + 2) = 53).
Proof.
  split.
  - destruct (Heatmap_render now 2024 Sunday) as (g & Hg & Hd & Hf & Ho & Ht & _ & _);
      [unfold supportedYear; lia|].
    exists g. rewrite Ht, Ho, Hd, Hf. repeat split; try assumption; reflexivity.
  - destruct (Heatmap_render now 2025 Monday) as (g & Hg & Hd & Hf & Ho & Ht & _ & _);
      [unfold supportedYear; lia|].
    exists g. rewrite Ht, Ho, Hd, Hf. repeat split; try assumption; reflexivity.
Qed.

(** * The defaults of the props *)

(** C9, as stated, fails: with [weekDayLabelLayout] omitted the layout is
    not the value "start". *)
Lemma default_layout_is_not_start :
  ~ (Params.weekStartDay (heatmapParams HeatmapProps.omitted) = Sunday /\
     Params.cellSize (heatmapParams HeatmapProps.omitted) = 16 /\
     Params.gap (heatmapParams HeatmapProps.omitted) = 4 /\
     Params.containerGap (heatmapParams HeatmapProps.omitted) = 18 /\
     layoutLiteral (Params.weekDayLabelLayout (heatmapParams HeatmapProps.omitted))
       = "start"%string).
Proof. intros (_ & _ & _ & _ & H). discriminate H. Qed.

(** C9, amended. Each of these props, when omitted, takes its default:
    [weekStartDay] is Sunday-start, [cellSize] is 16, [gap] is 4,
    [containerGap] is 18 and [weekDayLabelLayout] is the value "left" of the
    union "left", "center", "right", which the default weekday label
    renders aligned to the start. *)
Theorem heatmap_prop_defaults (props : HeatmapProps.t) :
  (HeatmapProps.weekStartDay props = None ->
   Params.weekStartDay (heatmapParams props) = Sunday /\
   weekStartDayLiteral (Params.weekStartDay (heatmapParams props)) = "sunday"%string) /\
  (HeatmapProps.cellSize props = None -> Params.cellSize (heatmapParams props) = 16) /\
  (HeatmapProps.gap props = None -> Params.gap (heatmapParams props) = 4) /\
  (HeatmapProps.containerGap props = None ->
   Params.containerGap (heatmapParams props) = 18) /\
  (HeatmapProps.weekDayLabelLayout props = None ->
   layoutLiteral (Params.weekDayLabelLayout (heatmapParams props)) = "left"%string /\
   justifyContent (Params.weekDayLabelLayout (heatmapParams props))
     = "flex-start"%string) /\
  (forall layout : LabelLayout,
     In (layoutLiteral layout) ["left"; "center"; "right"]%string).
Proof.
  unfold heatmapParams.
  cbn [Params.weekStartDay Params.cellSize Params.gap Params.containerGap
       Params.weekDayLabelLayout].
  split; [intros ->; split; reflexivity|].
  split; [intros ->; reflexivity|].
  split; [intros ->; reflexivity|].
  split; [intros ->; reflexivity|].
  split; [intros ->; split; reflexivity|].
  intros layout. destruct layout; cbn; auto.
Qed.

Lemma heatmap_prop_defaults_witness :
  Params.weekStartDay (heatmapParams HeatmapProps.omitted) = Sunday /\
  Params.cellSize (heatmapParams HeatmapProps.omitted) = 16 /\
  Params.gap (heatmapParams HeatmapProps.omitted) = 4 /\
  Params.containerGap (heatmapParams HeatmapProps.omitted) = 18 /\
  layoutLiteral (Params.weekDayLabelLayout (heatmapParams HeatmapProps.omitted))
    = "left"%string.
Proof.
  destruct (heatmap_prop_defaults HeatmapProps.omitted) as (Hw & Hc & Hg & Hcg & Hl & _).
  split; [exact (proj1 (Hw eq_refl))|].
  split; [exact (Hc eq_refl)|].
  split; [exact (Hg eq_refl)|].
  split; [exact (Hcg eq_refl)|].
  exact (proj1 (Hl eq_refl)).
Defined.

(** * The day cells *)

Lemma getDateFromDayOfYear_supported year dayOfYear :
  supportedYear year ->
  getDateFromDayOfYear year dayOfYear = Some (civil year 0 1 + (dayOfYear - 1)).
Proof.
  intros Hy. unfold getDateFromDayOfYear.
  rewrite (parse_yearStartString year Hy), add_day_shift. reflexivity.
Qed.

Lemma ceilDiv7_bounds n : 7 * (ceilDiv7 n - 1) < n <= 7 * ceilDiv7 n.
Proof. unfold ceilDiv7. Z.to_euclidean_division_equations. lia. Qed.

Lemma cellAt_in_grid g year diy off cols c r cell :
  Rendered.dayCells g =
    map (fun colIdx => map (dayCellProps year diy off colIdx) (seq 0 7)) (seq 0 cols) ->
  cellAt g c r = Some cell ->
  (c < cols)%nat /\ (r < 7)%nat /\ cell = dayCellProps year diy off c r.
Proof.
  intros Hg Hc. rewrite (cellAt_grid g year diy off cols Hg) in Hc.
  destruct (Nat.ltb_spec c cols), (Nat.ltb_spec r 7); cbn [andb] in Hc;
    try discriminate Hc.
  injection Hc as <-. auto.
Qed.

Lemma cellAt_of_grid g year diy off cols c r :
  Rendered.dayCells g =
    map (fun colIdx => map (dayCellProps year diy off colIdx) (seq 0 7)) (seq 0 cols) ->
  (c < cols)%nat -> (r < 7)%nat ->
  cellAt g c r = Some (dayCellProps year diy off c r).
Proof.
  intros Hg Hc Hr. rewrite (cellAt_grid g year diy off cols Hg).
  destruct (Nat.ltb_spec c cols), (Nat.ltb_spec r 7); cbn [andb]; try lia. reflexivity.
Qed.



Lemma dayCellProps_dayOfYear year diy off c r doy :
  DayCellProps.dayOfYear (dayCellProps year diy off c r) = Some doy ->
  doy = Z.of_nat c * 7 + Z.of_nat r + 1 - off /\ 1 <= doy <= diy.
Proof.
  unfold dayCellProps. cbn [DayCellProps.dayOfYear].
  destruct (Z.leb_spec (Z.of_nat c * 7 + Z.of_nat r + 1 - off) 0),
           (Z.ltb_spec diy (Z.of_nat c * 7 + Z.of_nat r + 1 - off));
    cbn [orb]; intros Hsome; try discriminate Hsome.
  injection Hsome as <-. lia.
Qed.

Lemma dayCellProps_isEmpty year diy off c r :
  DayCellProps.isEmpty (dayCellProps year diy off c r) = true <->
  ~ (1 <= Z.of_nat c * 7 + Z.of_nat r + 1 - off <= diy).
Proof.
  unfold dayCellProps. cbn [DayCellProps.isEmpty].
  destruct (Z.leb_spec (Z.of_nat c * 7 + Z.of_nat r + 1 - off) 0),
           (Z.ltb_spec diy (Z.of_nat c * 7 + Z.of_nat r + 1 - off));
    cbn [orb]; split; intros Hx; try lia; try reflexivity; try discriminate Hx.
Qed.

Lemma dayCellProps_in_range year diy off c r :
  1 <= Z.of_nat c * 7 + Z.of_nat r + 1 - off <= diy ->
  DayCellProps.isEmpty (dayCellProps year diy off c r) = false /\
  DayCellProps.dayOfYear (dayCellProps year diy off c r)
    = Some (Z.of_nat c * 7 + Z.of_nat r + 1 - off) /\
  DayCellProps.date (dayCellProps year diy off c r)
    = getDateFromDayOfYear year (Z.of_nat c * 7 + Z.of_nat r + 1 - off).
Proof.
  intros Hin. unfold dayCellProps.
  cbn [DayCellProps.isEmpty DayCellProps.dayOfYear DayCellProps.date].
  destruct (Z.leb_spec (Z.of_nat c * 7 + Z.of_nat r + 1 - off) 0),
           (Z.ltb_spec diy (Z.of_nat c * 7 + Z.of_nat r + 1 - off));
    cbn [orb]; try lia. auto.
Qed.

(** The cell that holds a day of the year. *)
Lemma cell_of_day g year diy off doy :
  Rendered.dayCells g =
    map (fun colIdx => map (dayCellProps year diy off colIdx) (seq 0 7))
        (seq 0 (Z.to_nat (ceilDiv7 (diy + off)))) ->
  0 <= off -> 1 <= doy <= diy ->
  exists c r,
    Z.of_nat c = (doy - 1 + off) / 7 /\
    Z.of_nat r = (doy - 1 + off) mod 7 /\
    cellAt g c r = Some (dayCellProps year diy off c r) /\
    Z.of_nat c * 7 + Z.of_nat r + 1 - off = doy.
Proof.
  intros Hg Hoff Hdoy.
  pose proof (ceilDiv7_bounds (diy + off)) as Hceil.
  pose proof (Z.div_mod (doy - 1 + off) 7 ltac:(lia)) as Hdm.
  pose proof (Z.mod_pos_bound (doy - 1 + off) 7 ltac:(lia)) as Hm.
  assert (Hq : 0 <= (doy - 1 + off) / 7 < ceilDiv7 (diy + off)) by lia.
  exists (Z.to_nat ((doy - 1 + off) / 7)), (Z.to_nat ((doy - 1 + off) mod 7)).
  rewrite !Z2Nat.id by lia. repeat split; try lia.
  apply (cellAt_of_grid _ _ _ _ _ _ _ Hg); lia.
Qed.



(** * From a day of the year to its date, and back *)



(** * The two column formulas agree *)

Lemma nth_table (f : nat -> Z) (n i : nat) :
  (i < n)%nat -> nth i (map f (seq 0 n)) 0 = f i.
Proof.
  intros Hi. rewrite (nth_indep _ 0 (f 0%nat)) by (rewrite length_map, length_seq; lia).
  rewrite map_nth, seq_nth by lia. reflexivity.
Qed.

Lemma monthStart_in_year l m :
  0 <= l <= 1 -> 0 <= m <= 11 -> 0 <= monthStart l m <= 334 + l.
Proof. intros Hl Hm. each_month Hm; month_table; lia. Qed.



(** * The month row *)

(** A strictly increasing sequence of boundaries cuts the range between
    its ends into consecutive intervals. *)
Section Boundaries.

Variable b : nat -> Z.
Variable n : nat.
Hypothesis b_step : forall i, (i < n)%nat -> b i < b (S i).

Lemma boundary_mono i j : (i <= j)%nat -> (j <= n)%nat -> b i <= b j.
Proof.
  intros Hij. induction Hij as [|j Hij IH]; intros Hj; [lia|].
  specialize (IH ltac:(lia)). pose proof (b_step j ltac:(lia)). lia.
Qed.

Lemma boundary_cover col :
  b 0%nat <= col < b n -> exists i, (i < n)%nat /\ b i <= col < b (S i).
Proof.
  clear b_step. induction n as [|m IH]; intros Hcol; [lia|].
  destruct (Z_lt_dec col (b m)) as [Hlt|Hge].
  - destruct IH as (i & Hi & Hb); [lia|]. exists i. split; [lia|exact Hb].
  - exists m. split; [lia|]. lia.
Qed.

Lemma boundary_unique col i j :
  (i < n)%nat -> (j < n)%nat ->
  b i <= col < b (S i) -> b j <= col < b (S j) -> i = j.
Proof.
  intros Hi Hj Hci Hcj.
  destruct (Nat.lt_trichotomy i j) as [Hlt|[Heq|Hgt]]; [|exact Heq|].
  - pose proof (boundary_mono (S i) j ltac:(lia) ltac:(lia)). lia.
  - pose proof (boundary_mono (S j) i ltac:(lia) ltac:(lia)). lia.
Qed.

Lemma boundary_sum :
  sumZ (map (fun i => b (S i) - b i) (seq 0 n)) = b n - b 0%nat.
Proof.
  clear b_step. induction n as [|m IH]; [cbn; lia|].
  rewrite seq_S, map_app. unfold sumZ in *. rewrite fold_right_app.
  cbn [map fold_right Nat.add].
  assert (Hshift : forall xs a, fold_right Z.add a xs = fold_right Z.add 0 xs + a).
  { induction xs as [|x xs IHxs]; intros a; cbn [fold_right]; [lia|].
    rewrite IHxs. lia. }
  rewrite Hshift, IH. lia.
Qed.

End Boundaries.

Lemma div7_month_step x k : 28 <= k -> x / 7 + 4 <= (x + k) / 7.
Proof. intros Hk. Z.to_euclidean_division_equations. lia. Qed.

Lemma monthLabel_boundaries cols endCol index :
  (index < 12)%nat ->
  MonthLabelProps.startCol (monthLabelProps cols endCol index)
    = monthBoundary cols endCol index /\
  MonthLabelProps.span (monthLabelProps cols endCol index)
    = monthBoundary cols endCol (S index) - monthBoundary cols endCol index.
Proof.
  intros Hi. unfold monthLabelProps, monthBoundary.
  cbn [MonthLabelProps.startCol MonthLabelProps.span].
  destruct (Nat.ltb_spec index 12); [|lia]. split; [reflexivity|].
  rewrite Nat.add_1_r.
  destruct (Nat.eqb_spec index 11), (Nat.ltb_spec (S index) 12); try lia; reflexivity.
Qed.

Lemma monthBoundary_step year off index :
  0 <= off <= 6 -> (index < 12)%nat ->
  monthBoundary
    (map (fun i => getStartColumnForDay (monthStart (LeapOfYear year) (Z.of_nat i) + 1) off)
         (seq 0 12))
    (ceilDiv7 (DaysInYear year + off) + 1) index + 4
  <= monthBoundary
       (map (fun i => getStartColumnForDay (monthStart (LeapOfYear year) (Z.of_nat i) + 1) off)
            (seq 0 12))
       (ceilDiv7 (DaysInYear year + off) + 1) (S index).
Proof.
  intros Hoff Hi. unfold monthBoundary.
  assert (Hl : 0 <= LeapOfYear year <= 1) by (destruct (LeapOfYear_cases year); lia).
  assert (Hm : 0 <= Z.of_nat index <= 11) by lia.
  pose proof (monthLength_range year (Z.of_nat index) Hm) as Hlen.
  unfold monthLength in Hlen.
  destruct (Nat.ltb_spec index 12); [|lia]. rewrite nth_table by lia.
  unfold getStartColumnForDay.
  destruct (Nat.ltb_spec (S index) 12).
  - rewrite nth_table by lia. rewrite Nat2Z.inj_succ. unfold Z.succ.
    pose proof (div7_month_step (monthStart (LeapOfYear year) (Z.of_nat index) + 1 - 1 + off)
                  (monthStart (LeapOfYear year) (Z.of_nat index + 1)
                   - monthStart (LeapOfYear year) (Z.of_nat index)) ltac:(lia)) as Hstep.
    replace (monthStart (LeapOfYear year) (Z.of_nat index) + 1 - 1 + off
             + (monthStart (LeapOfYear year) (Z.of_nat index + 1)
                - monthStart (LeapOfYear year) (Z.of_nat index)))
      with (monthStart (LeapOfYear year) (Z.of_nat index + 1) + 1 - 1 + off) in Hstep by lia.
    lia.
  - assert (index = 11%nat) by lia. subst index.
    pose proof (ceilDiv7_bounds (DaysInYear year + off)) as Hceil.
    unfold LeapOfYear in *. change (Z.of_nat 11) with 11 in *. month_table.
    pose proof (div7_month_step (334 + (DaysInYear year - 365) + 1 - 1 + off) 31 ltac:(lia))
      as Hstep.
    pose proof (Z.mul_div_le (334 + (DaysInYear year - 365) + 1 - 1 + off + 31) 7 ltac:(lia)).
    lia.
Qed.

Lemma cumulativeDays_monthStart year index :
  (index < 12)%nat ->
  sumZ (firstn index (map (fun i => monthLength year (Z.of_nat i)) (seq 0 12)))
    = monthStart (LeapOfYear year) (Z.of_nat index).
Proof.
  intros Hi.
  do 12 (destruct index as [|index];
         [cbv [sumZ firstn map seq fold_right Z.of_nat Pos.of_succ_nat Pos.succ];
          unfold monthLength; month_table; lia|]).
  lia.
Qed.



(** * Outside the supported years *)

(** A year whose decimal form is not four digits long gives a string that
    dayjs does not parse itself; the first day of the year, and with it the
    grid, is then what the engine's own parser makes of the string. *)
Lemma years_outside_dayjs_pattern (now : Dayjs.t) (ws : WeekStartDay) :
  Heatmap now (yearProps 999 ws) = None /\
  Heatmap now (yearProps 10000 ws) = None /\
  Heatmap now (yearProps (-1) ws) = None.
Proof. repeat split. Qed.

(** * Further properties of the helper functions *)

Lemma LeapOfYear_leap y : LeapOfYear y = if isLeapYear y then 1 else 0.
Proof. unfold LeapOfYear. rewrite DaysInYear_leap. destruct (isLeapYear y); reflexivity. Qed.

Lemma monthLength_table y m :
  0 <= m <= 11 ->
  monthLength y m = nth (Z.to_nat m) (monthLengths (28 + LeapOfYear y)) 0.
Proof.
  intros Hm. unfold monthLength.
  each_month Hm; month_table; cbv [Z.to_nat Pos.to_nat Pos.iter_op Nat.add monthLengths nth];
    lia.
Qed.





Lemma monthLength_sum y :
  sumZ (map (fun index => monthLength y (Z.of_nat index)) (seq 0 12)) = DaysInYear y.
Proof.
  cbv [sumZ map seq fold_right Z.of_nat Pos.of_succ_nat Pos.succ].
  unfold monthLength. month_table. unfold LeapOfYear. lia.
Qed.

Lemma fullYear_succ y : y <> -1 -> y <> 99 -> fullYear (y + 1) = fullYear y + 1.
Proof.
  intros H1 H99. unfold fullYear.
  destruct (Z.leb_spec 0 (y + 1)), (Z.leb_spec (y + 1) 99),
           (Z.leb_spec 0 y), (Z.leb_spec y 99); cbv [andb]; lia.
Qed.



(** X4. For a year from 0 to 99, [getDaysInMonth] returns the month
    lengths of the year 1900 + year, because [daysInMonth()] rebuilds the
    date with the [Date] constructor; the value is the length of the month
    in the year asked for except for February of the year 0, a leap year
    that is given the 28 days of February 1900. *)
Theorem getDaysInMonth_two_digit_year (now : Dayjs.t) (year month : Z) :
  0 <= year <= 99 -> 0 <= month <= 11 ->
  getDaysInMonth now year month = monthLength (1900 + year) month /\
  (getDaysInMonth now year month = monthLength year month <->
   ~ (year = 0 /\ month = 1)).
Proof.
  intros Hy Hm. rewrite getDaysInMonth_length by assumption.
  assert (Hf : fullYear year = 1900 + year).
  { unfold fullYear. destruct (Z.leb_spec 0 year), (Z.leb_spec year 99); cbv [andb]; lia. }
  rewrite Hf. split; [reflexivity|].
  rewrite !monthLength_table by assumption.
  destruct (Z.eq_dec year 0) as [->|Hne].
  - change (LeapOfYear (1900 + 0)) with 0. change (LeapOfYear 0) with 1.
    each_month Hm; cbv [Z.to_nat Pos.to_nat Pos.iter_op Nat.add monthLengths nth];
      split; intros; lia.
  - unfold LeapOfYear. rewrite DaysInYear_two_digit by lia. split; [lia|reflexivity].
Qed.

Lemma getDaysInMonth_two_digit_year_witness :
  getDaysInMonth 20000 0 1 = monthLength (1900 + 0) 1 /\
  (getDaysInMonth 20000 0 1 = monthLength 0 1 <-> ~ (0 = 0 /\ 1 = 1)).
Proof. apply (getDaysInMonth_two_digit_year 20000 0 1); lia. Defined.





(** * Further properties of the month loop *)

(** X7. On any array of twelve month lengths, the loop that fills
    [monthStartCols] leaves twelve start columns, the one of month [i]
    being the start column of the day after the first [i] lengths added
    up, and leaves in [cumulativeDays] the sum of the twelve lengths. *)
Theorem monthStartCols_loop_invariant (daysInMonthArray : list Z) (firstDayOffset : Z) :
  List.length daysInMonthArray = 12%nat ->
  fst (monthStartCols_loop daysInMonthArray firstDayOffset)
    = map (fun i => getStartColumnForDay (sumZ (firstn i daysInMonthArray) + 1)
                                         firstDayOffset)
          (seq 0 12) /\
  snd (monthStartCols_loop daysInMonthArray firstDayOffset) = sumZ daysInMonthArray.
Proof.
  intros Hlen.
  do 12 (destruct daysInMonthArray as [|? daysInMonthArray]; [discriminate Hlen|]).
  destruct daysInMonthArray; [|discriminate Hlen].
  cbv [monthStartCols_loop seq map fold_left monthStartCols_step fst snd nth app
       sumZ firstn fold_right].
  split; [repeat (f_equal; try lia)|lia].
Qed.

Lemma monthStartCols_loop_invariant_witness :
  fst (monthStartCols_loop (monthLengths 28) 3)
    = map (fun i => getStartColumnForDay (sumZ (firstn i (monthLengths 28)) + 1) 3)
          (seq 0 12) /\
  snd (monthStartCols_loop (monthLengths 28) 3) = sumZ (monthLengths 28).
Proof. apply (monthStartCols_loop_invariant (monthLengths 28) 3). reflexivity. Defined.

(** * Further properties of the grid *)

Lemma getWeekday_shift ws d k :
  Config.getWeekday (config ws) (d + k) = (Config.getWeekday (config ws) d + k) mod 7.
Proof.
  destruct ws; cbn [config Config.getWeekday]; unfold Dayjs.isoWeekday, Dayjs.day, WeekDay.
  - destruct (Z.eqb_spec ((d + k + 4) mod 7) 0), (Z.eqb_spec ((d + 4) mod 7) 0);
      Z.to_euclidean_division_equations; lia.
  - Z.to_euclidean_division_equations; lia.
Qed.

Lemma Heatmap_weekdayLabels now year ws g :
  Heatmap now (yearProps year ws) = Some g ->
  Rendered.weekdayLabels g
    = mapi_from (weekdayLabelProps 16 LayoutLeft) 0 (Config.labels (config ws)).
Proof.
  unfold Heatmap, yearProps, heatmapParams.
  cbn [Params.year Params.weekStartDay Params.cellSize Params.weekDayLabelLayout
       orDefault HeatmapProps.year HeatmapProps.weekStartDay HeatmapProps.cellSize
       HeatmapProps.weekDayLabelLayout].
  cbv zeta.
  destruct (Dayjs.parse (yearStartString year)) as [first|]; [|discriminate].
  intros Hg.
  apply (f_equal (fun rendered =>
                    match rendered with
                    | Some x => Rendered.weekdayLabels x
                    | None => []
                    end)) in Hg.
  symmetry. exact Hg.
Qed.

Lemma dayCellProps_date year diy off c r d :
  DayCellProps.date (dayCellProps year diy off c r) = Some d ->
  1 <= Z.of_nat c * 7 + Z.of_nat r + 1 - off <= diy /\
  getDateFromDayOfYear year (Z.of_nat c * 7 + Z.of_nat r + 1 - off) = Some d.
Proof.
  unfold dayCellProps. cbn [DayCellProps.date].
  destruct (Z.leb_spec (Z.of_nat c * 7 + Z.of_nat r + 1 - off) 0),
           (Z.ltb_spec diy (Z.of_nat c * 7 + Z.of_nat r + 1 - off));
    cbn [orb]; intros Hd; try discriminate Hd.
  split; [lia|exact Hd].
Qed.

Lemma weekday_label_of_row ws cellSize layout d (r : nat) :
  Config.getWeekday (config ws) d = Z.of_nat r ->
  exists lbl,
    nth_error (mapi_from (weekdayLabelProps cellSize layout) 0 (Config.labels (config ws))) r
      = Some lbl /\
    WeekdayLabelProps.index lbl = Z.of_nat r /\
    nth_error WEEKDAYS_SUN_START (Z.to_nat (Dayjs.day d))
      = Some (WeekdayLabelProps.label lbl).
Proof.
  intros Hrow. pose proof (getWeekday_range ws d) as Hrange.
  assert (Hday : Dayjs.day d
                 = match ws with
                   | Sunday => Z.of_nat r
                   | Monday => (Z.of_nat r + 1) mod 7
                   end).
  { destruct ws; cbn [config Config.getWeekday] in Hrow; [|exact Hrow].
    destruct (isoWeekday_cases d) as [[H0 H7]|[H16 Hsame]];
      Z.to_euclidean_division_equations; lia. }
  rewrite Hday.
  do 7 (destruct r as [|r];
        [destruct ws; eexists; repeat split; reflexivity|]).
  lia.
Qed.





(** X10. For a supported year, a placeholder lies in the first or in the
    last column; in the first column the placeholders are the rows above
    row [firstDayOffset], where January 1 sits; and the last day of the
    year sits in the last column. *)
Theorem placeholders_first_and_last_column
    (now : Dayjs.t) (year : Z) (ws : WeekStartDay) :
  supportedYear year ->
  exists g,
    Heatmap now (yearProps year ws) = Some g /\
    (forall c r cell,
       cellAt g c r = Some cell ->
       DayCellProps.isEmpty cell = true ->
       c = 0%nat \/ Z.of_nat c = Rendered.totalCols g - 1) /\
    (forall r, (r < 7)%nat ->
       exists cell,
         cellAt g 0 r = Some cell /\
         (DayCellProps.isEmpty cell = true <-> Z.of_nat r < Rendered.firstDayOffset g)) /\
    (exists cell,
       cellAt g 0 (Z.to_nat (Rendered.firstDayOffset g)) = Some cell /\
       DayCellProps.dayOfYear cell = Some 1 /\
       DayCellProps.date cell = Some (Rendered.firstDayOfYear g)) /\
    (exists r cell,
       cellAt g (Z.to_nat (Rendered.totalCols g - 1)) r = Some cell /\
       DayCellProps.dayOfYear cell = Some (Rendered.daysInYear g)).
Proof.
  intros Hy. pose proof Hy as [Hlo Hhi].
  destruct (Heatmap_render now year ws Hy)
    as (g & Hg & Hdiy & Hfirst & Hoff & Hcols & _ & _ & _ & Hcells & _).
  exists g. split; [exact Hg|].
  assert (Hrange : 0 <= Rendered.firstDayOffset g <= 6)
    by (rewrite Hoff; apply getWeekday_range).
  rewrite <- Hdiy in Hcols.
  pose proof (ceilDiv7_bounds (Rendered.daysInYear g + Rendered.firstDayOffset g)) as Hceil.
  rewrite <- Hcols in Hceil.
  assert (Hdays : 365 <= Rendered.daysInYear g <= 366)
    by (rewrite Hdiy; destruct (DaysInYear_cases year); lia).
  split.
  { intros c r cell Hcell Hempty.
    destruct (cellAt_in_grid _ _ _ _ _ _ _ _ Hcells Hcell) as (Hc & Hr & ->).
    apply dayCellProps_isEmpty in Hempty. lia. }
  split.
  { intros r Hr. eexists.
    split; [apply (cellAt_of_grid _ _ _ _ _ 0 r Hcells); lia|].
    rewrite dayCellProps_isEmpty. lia. }
  split.
  { eexists.
    split; [apply (cellAt_of_grid _ _ _ _ _ 0 _ Hcells); lia|].
    destruct (dayCellProps_in_range year (Rendered.daysInYear g)
                (Rendered.firstDayOffset g) 0 (Z.to_nat (Rendered.firstDayOffset g)))
      as (_ & Hd & Hdate); [lia|].
    rewrite Hd, Hdate, (getDateFromDayOfYear_supported year _ Hy), Hfirst.
    split; f_equal; lia. }
  rewrite Hcols in Hcells.
  destruct (cell_of_day g year _ _ (Rendered.daysInYear g) Hcells)
    as (c & r & Hc & Hr & Hcell & Hday); [lia|lia|].
  assert (Hlast : Z.of_nat c = Rendered.totalCols g - 1).
  { pose proof (Z.div_mod (Rendered.daysInYear g - 1 + Rendered.firstDayOffset g) 7
                  ltac:(lia)).
    pose proof (Z.mod_pos_bound (Rendered.daysInYear g - 1 + Rendered.firstDayOffset g) 7
                  ltac:(lia)).
    lia. }
  exists r. eexists. rewrite <- Hlast, Nat2Z.id.
  split; [exact Hcell|].
  destruct (dayCellProps_in_range year (Rendered.daysInYear g)
              (Rendered.firstDayOffset g) c r) as (_ & Hd & _); [lia|].
  rewrite Hd. f_equal. exact Hday.
Qed.

Lemma placeholders_first_and_last_column_witness :
  supportedYear 2024 /\
  exists g, Heatmap 20000 (yearProps 2024 Sunday) = Some g.
Proof.
  split; [unfold supportedYear; lia|].
  destruct (placeholders_first_and_last_column 20000 2024 Sunday) as (g & Hg & _);
    [unfold supportedYear; lia|].
  exists g. exact Hg.
Defined.



(** * Further properties of the month row *)

Lemma div7_month_step_upper x k : k <= 31 -> (x + k) / 7 <= x / 7 + 5.
Proof. intros Hk. Z.to_euclidean_division_equations. lia. Qed.

Lemma monthBoundary_step_bounds year off index :
  0 <= off <= 6 -> (index < 12)%nat ->
  let b := monthBoundary
             (map (fun i => getStartColumnForDay
                              (monthStart (LeapOfYear year) (Z.of_nat i) + 1) off)
                  (seq 0 12))
             (ceilDiv7 (DaysInYear year + off) + 1) in
  ((index < 11)%nat /\ b index + 4 <= b (S index) <= b index + 5) \/
  (index = 11%nat /\ b index + 5 <= b (S index) <= b index + 6).
Proof.
  intros Hoff Hi b. subst b. unfold monthBoundary.
  assert (Hl : 0 <= LeapOfYear year <= 1) by (destruct (LeapOfYear_cases year); lia).
  assert (Hm : 0 <= Z.of_nat index <= 11) by lia.
  pose proof (monthLength_range year (Z.of_nat index) Hm) as Hlen.
  unfold monthLength in Hlen.
  destruct (Nat.ltb_spec index 12); [|lia]. rewrite nth_table by lia.
  unfold getStartColumnForDay.
  destruct (Nat.ltb_spec (S index) 12).
  - left. split; [lia|].
    rewrite nth_table by lia. rewrite Nat2Z.inj_succ. unfold Z.succ.
    set (x := monthStart (LeapOfYear year) (Z.of_nat index) + 1 - 1 + off).
    set (k := monthStart (LeapOfYear year) (Z.of_nat index + 1)
              - monthStart (LeapOfYear year) (Z.of_nat index)) in *.
    pose proof (div7_month_step x k ltac:(lia)) as Hlow.
    pose proof (div7_month_step_upper x k ltac:(lia)) as Hup.
    replace (monthStart (LeapOfYear year) (Z.of_nat index + 1) + 1 - 1 + off)
      with (x + k) by (subst x k; lia).
    lia.
  - right. assert (index = 11%nat) by lia. subst index. split; [reflexivity|].
    pose proof (ceilDiv7_bounds (DaysInYear year + off)) as Hceil.
    unfold LeapOfYear in *. change (Z.of_nat 11) with 11 in *. month_table.
    pose proof (Z.div_mod (334 + (DaysInYear year - 365) + 1 - 1 + off) 7 ltac:(lia)).
    pose proof (Z.mod_pos_bound (334 + (DaysInYear year - 365) + 1 - 1 + off) 7 ltac:(lia)).
    lia.
Qed.

(** X12. For a supported year, the label of each month from January to
    November spans 4 or 5 columns, and the label of December 5 or 6. *)
Theorem month_span_bounds (now : Dayjs.t) (year : Z) (ws : WeekStartDay) :
  supportedYear year ->
  exists g,
    Heatmap now (yearProps year ws) = Some g /\
    forall index month,
      monthAt g index = Some month ->
      ((index < 11)%nat /\ 4 <= MonthLabelProps.span month <= 5) \/
      (index = 11%nat /\ 5 <= MonthLabelProps.span month <= 6).
Proof.
  intros Hy.
  destruct (Heatmap_render now year ws Hy)
    as (g & Hg & _ & _ & Hoff & Hcols & Hstarts & Hend & Hmonths & _).
  exists g. split; [exact Hg|]. intros index month Hm.
  assert (Hrange : 0 <= Rendered.firstDayOffset g <= 6)
    by (rewrite Hoff; apply getWeekday_range).
  rewrite (monthAt_labels g Hmonths) in Hm.
  destruct (Nat.ltb_spec index 12) as [Hi|]; [|discriminate Hm].
  injection Hm as <-.
  destruct (monthLabel_boundaries (Rendered.monthStartCols g) (Rendered.endCol g) index Hi)
    as (_ & ->).
  rewrite Hend, Hcols, Hstarts.
  pose proof (monthBoundary_step_bounds year (Rendered.firstDayOffset g) index Hrange Hi)
    as Hb.
  cbv zeta in Hb. lia.
Qed.

Lemma month_span_bounds_witness :
  supportedYear 2024 /\
  exists g, Heatmap 20000 (yearProps 2024 Sunday) = Some g.
Proof.
  split; [unfold supportedYear; lia|].
  destruct (month_span_bounds 20000 2024 Sunday) as (g & Hg & _);
    [unfold supportedYear; lia|].
  exists g. exact Hg.
Defined.

(** X13. For a supported year, a cell whose date falls in a month lies,
    as a 1-indexed column, from the start column of the label of that
    month to at most one column past its span: the days of a month are in
    the columns of its label, or in the column it shares with the first
    days of the next month. *)
Theorem month_days_lie_under_label (now : Dayjs.t) (year : Z) (ws : WeekStartDay) :
  supportedYear year ->
  exists g,
    Heatmap now (yearProps year ws) = Some g /\
    forall c r cell d,
      cellAt g c r = Some cell ->
      DayCellProps.date cell = Some d ->
      exists month,
        monthAt g (Z.to_nat (Dayjs.month_of d)) = Some month /\
        MonthLabelProps.index month = Dayjs.month_of d /\
        MonthLabelProps.startCol month
          <= DayCellProps.colIndex cell + 1
          <= MonthLabelProps.startCol month + MonthLabelProps.span month.
Proof.
  intros Hy. pose proof Hy as [Hlo Hhi].
  destruct (Heatmap_render now year ws Hy)
    as (g & Hg & Hdiy & _ & Hoff & Hcols & Hstarts & Hend & Hmonths & Hcells & _).
  exists g. split; [exact Hg|]. intros c r cell d Hcell Hdate.
  assert (Hrange : 0 <= Rendered.firstDayOffset g <= 6)
    by (rewrite Hoff; apply getWeekday_range).
  destruct (cellAt_in_grid _ _ _ _ _ _ _ _ Hcells Hcell) as (Hc & Hr & ->).
  apply dayCellProps_date in Hdate. destruct Hdate as (Hin & Hd).
  rewrite (getDateFromDayOfYear_supported year _ Hy) in Hd. injection Hd as <-.
  set (doy := Z.of_nat c * 7 + Z.of_nat r + 1 - Rendered.firstDayOffset g) in *.
  rewrite civil_year_start, month_of_eq.
  destruct (day_in_year year (doy - 1)) as (Hyear & Hwithin & Hleap);
    [rewrite <- Hdiy; lia|].
  set (d := DayFromYear year + (doy - 1)) in *.
  pose proof (MonthFromDay_range d) as Hm.
  pose proof (MonthFromDay_spec d) as Hspec. rewrite Hwithin, Hleap in Hspec.
  set (m := MonthFromDay d) in *.
  assert (Hi : (Z.to_nat m < 12)%nat) by lia.
  eexists. split.
  { rewrite (monthAt_labels g Hmonths).
    destruct (Nat.ltb_spec (Z.to_nat m) 12); [reflexivity|lia]. }
  split; [unfold monthLabelProps; cbn [MonthLabelProps.index]; lia|].
  destruct (monthLabel_boundaries (Rendered.monthStartCols g) (Rendered.endCol g)
              (Z.to_nat m) Hi) as (-> & ->).
  unfold dayCellProps. cbn [DayCellProps.colIndex].
  assert (Hcol : Z.of_nat c = (doy - 1 + Rendered.firstDayOffset g) / 7).
  { replace (doy - 1 + Rendered.firstDayOffset g)
      with (Z.of_nat r + Z.of_nat c * 7) by (subst doy; lia).
    rewrite Z.div_add, Z.div_small by lia. lia. }
  unfold monthBoundary. rewrite Hstarts.
  destruct (Nat.ltb_spec (Z.to_nat m) 12); [|lia].
  rewrite nth_table by lia. rewrite Z2Nat.id by lia.
  unfold getStartColumnForDay.
  pose proof (Z.div_le_mono (monthStart (LeapOfYear year) m + 1 - 1
                             + Rendered.firstDayOffset g)
                            (doy - 1 + Rendered.firstDayOffset g) 7 ltac:(lia) ltac:(lia))
    as Hlow.
  destruct (Nat.ltb_spec (S (Z.to_nat m)) 12).
  - rewrite nth_table by lia. rewrite Nat2Z.inj_succ, Z2Nat.id by lia. unfold Z.succ.
    pose proof (Z.div_le_mono (doy - 1 + Rendered.firstDayOffset g)
                              (monthStart (LeapOfYear year) (m + 1) + 1 - 1
                               + Rendered.firstDayOffset g) 7 ltac:(lia) ltac:(lia)).
    lia.
  - rewrite Hend. lia.
Qed.

Lemma month_days_lie_under_label_witness :
  supportedYear 2024 /\
  exists g, Heatmap 20000 (yearProps 2024 Monday) = Some g.
Proof.
  split; [unfold supportedYear; lia|].
  destruct (month_days_lie_under_label 20000 2024 Monday) as (g & Hg & _);
    [unfold supportedYear; lia|].
  exists g. exact Hg.
Defined.

(** * The default weekday label *)

Lemma objGet_app key (a b : StyleObject) :
  objGet key (a ++ b)
    = match objGet key b with
      | Some v => Some v
      | None => objGet key a
      end.
Proof.
  induction a as [|[k v] a IH]; cbn [app objGet].
  - destruct (objGet key b); reflexivity.
  - rewrite IH. destruct (objGet key b); reflexivity.
Qed.

(** X14. In the style of the default weekday label, every property the
    caller's [style] sets has the caller's value; only where [style] is
    silent, or absent, is [justifyContent] the one the layout gives
    ("center", "flex-end" for right, "flex-start" otherwise) and [height]
    the cell size, and no other property is set. *)
Theorem DefaultWeekdayLabel_style_overrides
    (props : WeekdayLabelProps.t) (style : option StyleObject) (key : string) :
  objGet key (Element.style (DefaultWeekdayLabel props style))
    = match objGet key (spreadStyle style) with
      | Some v => Some v
      | None =>
          if String.eqb key "justifyContent"
          then Some (CssString (justifyContent (WeekdayLabelProps.layout props)))
          else if String.eqb key "height"
               then Some (CssNumber (WeekdayLabelProps.cellSize props))
               else None
      end /\
  Element.text (DefaultWeekdayLabel props style) = WeekdayLabelProps.label props.
Proof.
  unfold DefaultWeekdayLabel. cbn [Element.style Element.text].
  split; [|reflexivity].
  rewrite objGet_app. destruct (objGet key (spreadStyle style)); [reflexivity|].
  cbn [objGet]. destruct (String.eqb key "justifyContent"); reflexivity.
Qed.

(** * What the sizing props leave alone *)

(** X15. Two calls of the component that agree on the year and on the
    week-start convention, whatever their sizes, gaps, label layout and
    class, compute the same day count, first-day offset, column count,
    month labels and day cells. *)
Theorem geometry_ignores_sizing_props (now : Dayjs.t) (props props' : HeatmapProps.t) :
  Params.year (heatmapParams props) = Params.year (heatmapParams props') ->
  Params.weekStartDay (heatmapParams props)
    = Params.weekStartDay (heatmapParams props') ->
  option_map (fun g => (Rendered.daysInYear g, Rendered.firstDayOffset g,
                        Rendered.totalCols g, Rendered.monthLabels g,
                        Rendered.dayCells g))
             (Heatmap now props)
  = option_map (fun g => (Rendered.daysInYear g, Rendered.firstDayOffset g,
                          Rendered.totalCols g, Rendered.monthLabels g,
                          Rendered.dayCells g))
               (Heatmap now props').
Proof.
  intros Hyear Hws. unfold Heatmap. cbv zeta. rewrite Hyear, Hws.
  destruct (Dayjs.parse (yearStartString (Params.year (heatmapParams props'))));
    cbn [option_map Rendered.daysInYear Rendered.firstDayOffset Rendered.totalCols
         Rendered.monthLabels Rendered.dayCells];
    reflexivity.
Qed.

Lemma geometry_ignores_sizing_props_witness :
  option_map (fun g => (Rendered.daysInYear g, Rendered.firstDayOffset g,
                        Rendered.totalCols g, Rendered.monthLabels g,
                        Rendered.dayCells g))
             (Heatmap 20000 (yearProps 2025 Sunday))
  = option_map (fun g => (Rendered.daysInYear g, Rendered.firstDayOffset g,
                          Rendered.totalCols g, Rendered.monthLabels g,
                          Rendered.dayCells g))
               (Heatmap 20000
                  (HeatmapProps.mk None None (Some 12) (Some 3) None
                                   (Some LayoutCenter) None None)).
Proof.
  apply (geometry_ignores_sizing_props 20000 (yearProps 2025 Sunday)
           (HeatmapProps.mk None None (Some 12) (Some 3) None (Some LayoutCenter) None None));
    reflexivity.
Defined.
